(** * Solar eclipse integration: the catalog and visibility engine

    A shallow embedding of [custom_components/solar_eclipse/sensor.py]
    (class [EclipseCoordinator]) and of the constants of [const.py].

    Conventions of the embedding.
    - A timezone-aware UTC [datetime] is the integer number of microseconds
      since 1970-01-01T00:00:00Z; a [timedelta] is a number of microseconds.
      The year range check of [datetime] arithmetic is not modelled.
    - A Python [float] is a real number: the arithmetic of the source is read
      as exact arithmetic, [math.acos] and [math.sin] as [acos] and [sin],
      and [round(x, 1)] as rounding to the nearest tenth, ties to even.
    - The Skyfield ephemeris, once loaded and bound to an observer
      [(lat, lon)], is a function from instants to the angular separation of
      Sun and Moon in radians; [None] stands for "no ephemeris".
    - The [re] module and the HTTP session are collaborators of the code:
      they are parameters of the functions that call them. *)

From Stdlib Require Import ZArith List Bool Lia Reals Lra Psatz String Ascii.
From Stdlib Require Import Permutation Sorted.
From Equations Require Import Equations.
Import ListNotations.

Open Scope Z_scope.

(** ** datetime and timedelta *)

Definition datetime := Z.
Definition timedelta := Z.

Definition microseconds_per_minute : Z := 60000000.

(** [timedelta(minutes=n)] and [timedelta(hours=n)]. *)
Definition minutes (n : Z) : timedelta := n * microseconds_per_minute.
Definition hours (n : Z) : timedelta := n * 60 * microseconds_per_minute.

(** ** Geometric overlap (lines 416-431 and 490-507) *)

Module Overlap.

#[local] Open Scope R_scope.

(** The literal [3.1415926535] the source writes for pi. *)
Definition PI_literal : R := 3.1415926535.

Definition sun_radius_rad : R := (16.0 / 60.0) * (PI_literal / 180.0).
Definition moon_radius_rad : R := (15.5 / 60.0) * (PI_literal / 180.0).

(** [round(x)] to an integer, ties to even. *)
Definition round_half_even (x : R) : Z :=
  let n := Int_part x in
  if Rlt_dec (x - IZR n) (1 / 2) then n
  else if Rlt_dec (1 / 2) (x - IZR n) then (n + 1)%Z
  else if Z.even n then n else (n + 1)%Z.

(** [round(x, 1)]. *)
Definition round1 (x : R) : R := IZR (round_half_even (x * 10)) / 10.

(** The local function [clamp] of the source. *)
Definition clamp (x : R) : R := Rmax (-1.0) (Rmin 1.0 x).

(** The lens area of the partial-overlap branch; [Rs] and [rm] are the
    source's [R] and [r] (the Sun's and the Moon's angular radius). *)
Definition lens_area (d Rs rm : R) : R :=
  let alpha := 2 * acos (clamp ((d * d + Rs * Rs - rm * rm) / (2 * d * Rs))) in
  let beta := 2 * acos (clamp ((d * d + rm * rm - Rs * Rs) / (2 * d * rm))) in
  0.5 * (Rs * Rs * (alpha - sin alpha) + rm * rm * (beta - sin beta)).

(** Lines 421-431 of [async_calculate_coverage_percent], as a function of
    the local variables [d], [R] and [r]. *)
Definition coverage_of (d Rs rm : R) : R :=
  if Rge_dec d (Rs + rm) then 0.0
  else if Rle_dec d (Rabs (Rs - rm)) then
    let covered := PI_literal * (Rmin Rs rm) ^ 2 in
    round1 (100.0 * covered / (PI_literal * Rs ^ 2))
  else
    round1 (100.0 * lens_area d Rs rm / (PI_literal * Rs ^ 2)).

(** The percentage [async_calculate_coverage_percent] returns for the
    separation [sep_rad] the ephemeris reports. *)
Definition overlap_percent (sep_rad : R) : R :=
  coverage_of sep_rad sun_radius_rad moon_radius_rad.



End Overlap.

(** ** The ephemeris *)

(** [self._ephemeris] bound to the observer: the separation in radians at
    an instant, or [None] when Skyfield is not installed or not loaded. *)
Definition ephemeris := option (datetime -> R).

(** [async_calculate_coverage_percent(when, lat, lon)]. *)
Definition async_calculate_coverage_percent
    (eph : ephemeris) (when : datetime) : option R :=
  match eph with
  | None => None
  | Some separation => Some (Overlap.overlap_percent (separation when))
  end.

(** ** Local-maximum search (lines 433-475) *)

Module LocalMaximum.

(** One [for i in range(num)] loop: visits [start + i * step] in order and
    keeps the first instant of strictly smaller separation. *)
Definition scan_step (separation : datetime -> R) (start : datetime)
    (step : timedelta) (best : datetime * R) (i : nat) : datetime * R :=
  let dt := start + Z.of_nat i * step in
  let sep := separation dt in
  if Rlt_dec sep (snd best) then (dt, sep) else best.

Definition scan (separation : datetime -> R) (start : datetime)
    (step : timedelta) (num : nat) (best : datetime * R) : datetime * R :=
  fold_left (scan_step separation start step) (seq 0 num) best.

(** [int((end - start) / step) + 1]. *)
Definition num_steps (start end_ : datetime) (step : timedelta) : nat :=
  Z.to_nat (Z.quot (end_ - start) step + 1).

Definition window : timedelta := hours 3.
Definition step : timedelta := minutes 5.
Definition refine_window : timedelta := minutes 10.
Definition refine_step : timedelta := minutes 1.

(** The state [(best_dt, best_sep)] after the coarse loop. *)
Definition coarse (separation : datetime -> R) (approx_when : datetime)
    : datetime * R :=
  let start := approx_when - window in
  let end_ := approx_when + window in
  let num := num_steps start end_ step in
  scan separation start step num (approx_when, separation approx_when).

(** The state [(best_dt, best_sep)] after the refinement loop. *)
Definition refined (separation : datetime -> R) (approx_when : datetime)
    : datetime * R :=
  let best := coarse separation approx_when in
  let start := fst best - refine_window in
  let end_ := fst best + refine_window in
  let num := num_steps start end_ refine_step in
  scan separation start refine_step num best.



End LocalMaximum.

(** [async_find_local_maximum(approx_when, lat, lon)]. *)
Definition async_find_local_maximum
    (eph : ephemeris) (approx_when : datetime) : option (datetime * R) :=
  match eph with
  | None => None
  | Some separation =>
      let best_dt := fst (LocalMaximum.refined separation approx_when) in
      match async_calculate_coverage_percent eph best_dt with
      | None => None
      | Some coverage => Some (best_dt, coverage)
      end
  end.

(** ** Contact-time search (lines 477-525) *)

Module ContactTimes.

Definition step : timedelta := minutes 2.

Section Loops.

Variable coverage : datetime -> R.
Variable limit : datetime.



End Loops.

End ContactTimes.


(** ** Python values the catalog code works with *)

Module Py.

#[local] Open Scope string_scope.

(** The exceptions the modelled code can raise. *)
Inductive exn : Type :=
  ValueError | TypeError | IndexError | RuntimeError | TransportError.

(** A computation that returns a value or raises. *)
Inductive result (A : Type) : Type :=
  | Ok (a : A)
  | Raise (e : exn).
Arguments Ok {A} a.
Arguments Raise {A} e.

Definition bind {A B : Type} (c : result A) (k : A -> result B) : result B :=
  match c with
  | Ok a => k a
  | Raise e => Raise e
  end.

(** [try: c except Exception: handler]. *)
Definition try_except {A : Type} (c : result A) (handler : result A) : result A :=
  match c with
  | Ok a => Ok a
  | Raise _ => handler
  end.

Notation "x <- c ;; k" := (bind c (fun x => k))
  (at level 61, c at next level, right associativity).

Definition is_digit (c : ascii) : bool :=
  let n := nat_of_ascii c in (48 <=? n)%nat && (n <=? 57)%nat.

Fixpoint digits_value (s : string) (acc : Z) : option Z :=
  match s with
  | EmptyString => Some acc
  | String c s' =>
      if is_digit c
      then digits_value s' (10 * acc + Z.of_nat (nat_of_ascii c - 48))
      else None
  end.

(** [int(s)] on the unsigned decimal numerals the patterns capture; any
    other string is a [ValueError]. *)
Definition int (s : string) : result Z :=
  match s with
  | EmptyString => Raise ValueError
  | _ => match digits_value s 0 with
         | Some n => Ok n
         | None => Raise ValueError
         end
  end.

Definition is_upper (c : ascii) : bool :=
  let n := nat_of_ascii c in (65 <=? n)%nat && (n <=? 90)%nat.
Definition is_lower (c : ascii) : bool :=
  let n := nat_of_ascii c in (97 <=? n)%nat && (n <=? 122)%nat.
Definition to_upper (c : ascii) : ascii :=
  if is_lower c then ascii_of_nat (nat_of_ascii c - 32) else c.
Definition to_lower (c : ascii) : ascii :=
  if is_upper c then ascii_of_nat (nat_of_ascii c + 32) else c.

(** [s.upper()] and [s.lower()] on ASCII text. *)
Fixpoint upper (s : string) : string :=
  match s with
  | EmptyString => EmptyString
  | String c s' => String (to_upper c) (upper s')
  end.
Fixpoint lower (s : string) : string :=
  match s with
  | EmptyString => EmptyString
  | String c s' => String (to_lower c) (lower s')
  end.

(** [s.title()] on ASCII text: a letter that follows a letter is lowered,
    any other letter is raised. *)
Fixpoint title_from (after_letter : bool) (s : string) : string :=
  match s with
  | EmptyString => EmptyString
  | String c s' =>
      let letter := is_upper c || is_lower c in
      String (if after_letter then to_lower c else to_upper c)
             (title_from letter s')
  end.
Definition title (s : string) : string := title_from false s.

(** [s.split(sep)] for a one-character separator. *)
Fixpoint split (sep : ascii) (s : string) : list string :=
  match s with
  | EmptyString => [EmptyString]
  | String c s' =>
      if Ascii.eqb c sep then EmptyString :: split sep s'
      else match split sep s' with
           | [] => [String c EmptyString]
           | w :: ws => String c w :: ws
           end
  end.

(** [s.split(sep, 1)] for a one-character separator. *)
Fixpoint split1 (sep : ascii) (s : string) : list string :=
  match s with
  | EmptyString => [EmptyString]
  | String c s' =>
      if Ascii.eqb c sep then [EmptyString; s']
      else match split1 sep s' with
           | [] => [String c EmptyString]
           | w :: ws => String c w :: ws
           end
  end.

(** [needle in text]. *)
Definition contains (needle text : string) : bool :=
  match index 0 needle text with
  | Some _ => true
  | None => match needle with EmptyString => true | _ => false end
  end.

(** [s.startswith(p)]. *)
Definition startswith (p s : string) : bool := prefix p s.

(** [s.lstrip(chars)]. *)
Fixpoint lstrip (chars : list ascii) (s : string) : string :=
  match s with
  | EmptyString => EmptyString
  | String c s' =>
      if existsb (Ascii.eqb c) chars then lstrip chars s' else s
  end.

(** The decimal digits of a natural number, least significant first. *)
Fixpoint rev_digits (fuel : nat) (n : N) : list ascii :=
  match fuel with
  | O => []
  | S fuel' =>
      let d := ascii_of_N (48 + N.modulo n 10) in
      if N.ltb n 10 then [d] else d :: rev_digits fuel' (N.div n 10)
  end.

(** [str(n)] for [n >= 0]. *)
Definition decimal (n : Z) : string :=
  let m := Z.to_N n in
  string_of_list_ascii (rev (rev_digits (S (N.to_nat (N.log2 m))) m)).

(** The format specs [{n:02d}] and [{n:04d}] for [n >= 0]. *)
Definition zero_pad (width : nat) (n : Z) : string :=
  let s := decimal n in
  string_of_list_ascii (repeat "0"%char (width - String.length s)) ++ s.

(** [d.get(key)] and [d.get(key, default)] on a dict literal. *)
Fixpoint dict_get {V : Type} (d : list (string * V)) (key : string) : option V :=
  match d with
  | [] => None
  | (k, v) :: d' => if String.eqb k key then Some v else dict_get d' key
  end.
Definition dict_get_default {V : Type} (d : list (string * V)) (key : string)
    (default : V) : V :=
  match dict_get d key with Some v => v | None => default end.

End Py.

(** ** The [datetime] constructor *)

Module Calendar.

Import Py.

Definition is_leap (year : Z) : bool :=
  (year mod 4 =? 0) && (negb (year mod 100 =? 0) || (year mod 400 =? 0)).

Definition days_in_month (year month : Z) : Z :=
  if (month =? 2) && is_leap year then 29
  else nth (Z.to_nat month) [0; 31; 28; 31; 30; 31; 30; 31; 31; 30; 31; 30; 31] 0.

Definition days_before_year (year : Z) : Z :=
  let y := year - 1 in y * 365 + y / 4 - y / 100 + y / 400.

Definition days_before_month (year month : Z) : Z :=
  nth (Z.to_nat month) [0; 0; 31; 59; 90; 120; 151; 181; 212; 243; 273; 304; 334] 0
  + (if (2 <? month) && is_leap year then 1 else 0).

(** The proleptic Gregorian ordinal of a date: 0001-01-01 is day 1. *)
Definition ymd2ord (year month day : Z) : Z :=
  days_before_year year + days_before_month year month + day.

(** The ordinal of 1970-01-01. *)
Definition epoch_ordinal : Z := 719163.

Definition valid_date (year month day : Z) : bool :=
  (1 <=? year) && (year <=? 9999) && (1 <=? month) && (month <=? 12)
  && (1 <=? day) && (day <=? days_in_month year month).

Definition valid_time (hour minute : Z) : bool :=
  (0 <=? hour) && (hour <=? 23) && (0 <=? minute) && (minute <=? 59).

(** The instant of a valid calendar date and time of day, UTC. *)
Definition instant (year month day hour minute : Z) : datetime :=
  ((ymd2ord year month day - epoch_ordinal) * 1440 + hour * 60 + minute)
  * microseconds_per_minute.

(** [datetime(year, month, day, hour, minute, tzinfo=timezone.utc)]; the
    month comes from [month_map.get] and may be [None]. *)
Definition datetime_utc (year : Z) (month : option Z) (day hour minute : Z)
    : result datetime :=
  match month with
  | None => Raise TypeError
  | Some m =>
      if valid_date year m day && valid_time hour minute
      then Ok (instant year m day hour minute)
      else Raise ValueError
  end.

End Calendar.

(** ** Events *)

Record EclipseEvent : Type := {
  identifier : string;
  date : datetime;
  type : string;
  start : option datetime;
  end_ : option datetime;
  region_text : option string
}.

(** ** Catalog fetcher (lines 197-217) *)

Module Fetcher.

Import Py.

(** What one [session.get(url, timeout=10, headers=headers)] does: it
    raises (a timeout, a connection error) or yields a response whose
    [text()] returns the body or raises. *)
Inductive attempt_outcome : Type :=
  | Failed
  | Response (status : Z) (text : result string).

(** The HTTP session: the outcome of each request to a URL, by the
    number of earlier requests to it within one call. *)
Definition session := string -> nat -> attempt_outcome.

(** What a call does besides returning, in order. *)
Inductive effect : Type :=
  | Get (attempt : nat)
  | Sleep (delay : Z).

(** The body of the [try]: a status other than 200 raises [RuntimeError]. *)
Definition request (o : attempt_outcome) : result string :=
  match o with
  | Failed => Raise TransportError
  | Response status text =>
      if status =? 200 then text else Raise RuntimeError
  end.

(** [for attempt in range(3)], with the delay in seconds. *)
Fixpoint attempts (get : nat -> attempt_outcome) (todo : list nat)
    (delay : Z) (log : list effect) : result (option string) * list effect :=
  match todo with
  | [] => (Ok None, log)
  | attempt :: rest =>
      match request (get attempt) with
      | Ok text => (Ok (Some text), log ++ [Get attempt])
      | Raise _ =>
          if (attempt <? 2)%nat
          then attempts get rest (delay * 2) (log ++ [Get attempt; Sleep delay])
          else attempts get rest delay (log ++ [Get attempt])
      end
  end.

Definition _async_fetch_text (http : session) (url : string)
    : result (option string) * list effect :=
  attempts (http url) (seq 0 3) 1 [].

(** The value a caller of [_async_fetch_text] receives. *)
Definition fetch_text (http : session) (url : string) : result (option string) :=
  fst (_async_fetch_text http url).

End Fetcher.

(** Python truth of an optional string: [None] and [""] are false. *)
Definition truthy (text : option string) : bool :=
  match text with
  | None => false
  | Some EmptyString => false
  | Some _ => true
  end.

(** ** Catalog parser (lines 219-304) *)

Module Catalog.

Import Py.
#[local] Open Scope string_scope.

Definition NASA_DECADE_URLS : list string := [
  "https://eclipse.gsfc.nasa.gov/SEdecade/SEdecade2021.html";
  "https://eclipse.gsfc.nasa.gov/SEdecade/SEdecade2031.html";
  "https://eclipse.gsfc.nasa.gov/SEdecade/SEdecade2041.html";
  "https://eclipse.gsfc.nasa.gov/SEdecade/SEdecade2051.html";
  "https://eclipse.gsfc.nasa.gov/SEdecade/SEdecade2061.html"
].

Definition month_map : list (string * Z) := [
  ("Jan", 1); ("Feb", 2); ("Mar", 3); ("Apr", 4); ("May", 5); ("Jun", 6);
  ("Jul", 7); ("Aug", 8); ("Sep", 9); ("Oct", 10); ("Nov", 11); ("Dec", 12)
].

Definition type_map : list (string * string) := [
  ("T", "Total"); ("A", "Annular"); ("P", "Partial"); ("H", "Hybrid");
  ("Total", "Total"); ("Annular", "Annular"); ("Partial", "Partial");
  ("Hybrid", "Hybrid")
].

Definition region_keywords : list (string * list string) := [
  ("Africa", ["africa"]);
  ("Asia", ["asia"]);
  ("Europe", ["europe"]);
  ("North America", ["north america"; "usa"; "united states"; "canada"; "mexico"]);
  ("South America", ["south america"]);
  ("Oceania", ["oceania"; "australia"; "new zealand"]);
  ("Antarctica", ["antarctica"])
].

(** [_extract_region_hint(row_text)]. *)
Definition _extract_region_hint (row_text : string) : option string :=
  let text := lower row_text in
  option_map fst
    (find (fun entry => existsb (fun k => contains k text) (snd entry))
          region_keywords).

(** The five groups of a match of [pattern]: the year [20\d{2}], the month
    abbreviation, the day [\d{1,2}], the type token and the time
    [\d{2}:\d{2}]. *)
Record Match : Type := {
  group1 : string;
  group2 : string;
  group3 : string;
  group4 : string;
  group5 : string
}.

(** The f-string [f"{year:04d}-{month:02d}-{day:02d}"]; formatting [None]
    with [02d] is a [TypeError]. *)
Definition format_identifier (year : Z) (month : option Z) (day : Z)
    : result string :=
  match month with
  | None => Raise TypeError
  | Some m => Ok (zero_pad 4 year ++ "-" ++ zero_pad 2 m ++ "-" ++ zero_pad 2 day)
  end.

(** The body of both match loops (lines 247-261 and 265-278): the event a
    match yields, or the exception that leaves [_async_fetch_nasa]. *)
Definition event_of_match (m : Match) (region_hint : option string)
    : result EclipseEvent :=
  year <- int (group1 m) ;;
  let mon_txt := title (group2 m) in
  day <- int (group3 m) ;;
  let typ_raw := group4 m in
  let time_txt := group5 m in
  let month := dict_get month_map mon_txt in
  let typ :=
    dict_get_default type_map (title typ_raw)
      (dict_get_default type_map (upper typ_raw) "Partial") in
  dt <- try_except
          (match map int (split1 ":" time_txt) with
           | [h; mi] =>
               hour <- h ;; minute <- mi ;;
               Calendar.datetime_utc year month day hour minute
           | _ => Raise ValueError
           end)
          (Calendar.datetime_utc year month day 0 0) ;;
  ident <- format_identifier year month day ;;
  Ok {| identifier := ident; date := dt; type := typ;
        start := None; end_ := None; region_text := region_hint |}.

(** The dict [uniq] after [e] is offered to it: keys keep their first
    position, and a later event replaces the stored one only when its date
    is strictly earlier. *)
Fixpoint uniq_offer (uniq : list (string * EclipseEvent)) (e : EclipseEvent)
    : list (string * EclipseEvent) :=
  match uniq with
  | [] => [(identifier e, e)]
  | (k, v) :: rest =>
      if String.eqb k (identifier e)
      then (k, if (date e <? date v)%Z then e else v) :: rest
      else (k, v) :: uniq_offer rest e
  end.

(** [list(uniq.values())] after the loop over [events]. *)
Definition dedup (events : list EclipseEvent) : list EclipseEvent :=
  map snd (fold_left uniq_offer events []).

(** [events.sort(key=lambda e: e.date)]: the stable sort by date. *)
Fixpoint insert_by_date (e : EclipseEvent) (sorted : list EclipseEvent)
    : list EclipseEvent :=
  match sorted with
  | [] => [e]
  | x :: rest =>
      if (date e <=? date x)%Z then e :: sorted else x :: insert_by_date e rest
  end.
Definition sort_by_date (events : list EclipseEvent) : list EclipseEvent :=
  fold_right insert_by_date [] events.

(** Lines 279-287: "Dedup and sort". *)
Definition dedup_and_sort (events : list EclipseEvent) : list EclipseEvent :=
  match events with
  | [] => events
  | _ => sort_by_date (dedup events)
  end.

Section Fetch.

(** [row_pattern.findall(text)], [pattern.search(row)] and
    [pattern.finditer(text)] of the [re] module, and the HTTP session. *)
Variable findall_rows : string -> list string.
Variable search : string -> option Match.
Variable finditer : string -> list Match.
Variable http : Fetcher.session.

(** One turn of [for row in rows]: [None] is the [continue]. *)
Definition parse_row (row : string) : result (option EclipseEvent) :=
  match search row with
  | None => Ok None
  | Some m => e <- event_of_match m (_extract_region_hint row) ;; Ok (Some e)
  end.

Fixpoint parse_rows (rows : list string) (events : list EclipseEvent)
    : result (list EclipseEvent) :=
  match rows with
  | [] => Ok events
  | row :: rest =>
      found <- parse_row row ;;
      parse_rows rest
        (match found with Some e => events ++ [e] | None => events end)
  end.

(** The whole-page scan, run while [events] is still empty. *)
Fixpoint scan_page (matches : list Match) (events : list EclipseEvent)
    : result (list EclipseEvent) :=
  match matches with
  | [] => Ok events
  | m :: rest =>
      e <- event_of_match m None ;;
      scan_page rest (events ++ [e])
  end.

(** [for url in NASA_DECADE_URLS]. *)
Fixpoint fetch_pages (urls : list string) (events : list EclipseEvent)
    : result (list EclipseEvent) :=
  match urls with
  | [] => Ok events
  | url :: rest =>
      text <- Fetcher.fetch_text http url ;;
      if truthy text then
        let page := match text with Some t => t | None => "" end in
        events1 <- parse_rows (findall_rows page) events ;;
        events2 <- match events1 with
                   | [] => scan_page (finditer page) events1
                   | _ => Ok events1
                   end ;;
        fetch_pages rest events2
      else fetch_pages rest events
  end.

(** [_async_fetch_nasa()]. *)
Definition _async_fetch_nasa : result (list EclipseEvent) :=
  events <- fetch_pages NASA_DECADE_URLS [] ;;
  Ok (dedup_and_sort events).

End Fetch.

End Catalog.

(** ** Regional visibility resolver (lines 306-335) *)

Module Regional.

Import Py.
#[local] Open Scope string_scope.

Definition JSEX_INDEX_URL : string :=
  "https://eclipse.gsfc.nasa.gov/JSEX/JSEX-index.html".

Definition SUPPORTED_REGIONS : list string := [
  "Global"; "Africa"; "Asia"; "Europe"; "North America"; "South America";
  "Oceania"; "Antarctica"
].

Definition JSEX_REGION_LABELS : list (string * string) := [
  ("Europe", "Europe");
  ("Africa", "Africa");
  ("Asia", "Asia and Asia Minor");
  ("North America", "North America");
  ("South America", "South America");
  ("Oceania", "Southeast Asia, Australia & Oceana")
].

Definition month_names : list string := [
  "Jan"; "Feb"; "Mar"; "Apr"; "May"; "Jun";
  "Jul"; "Aug"; "Sep"; "Oct"; "Nov"; "Dec"
].

(** [self.region = region if region in SUPPORTED_REGIONS else "Global"]. *)
Definition configured_region (region : string) : string :=
  if existsb (String.eqb region) SUPPORTED_REGIONS then region else "Global".

(** [l[i]] with Python's negative indices. *)
Definition list_index (l : list string) (i : Z) : result string :=
  let n := Z.of_nat (List.length l) in
  if (0 <=? i)%Z && (i <? n)%Z then Ok (nth (Z.to_nat i) l "")
  else if (- n <=? i)%Z && (i <? 0)%Z then Ok (nth (Z.to_nat (n + i)) l "")
  else Raise IndexError.

Section Resolver.

(** The session, and the two searches of the [re] module: the first group
    of the first anchor whose text is [label] in [text], and whether the
    three literal parts, separated by [\s+], occur in [text]; both ignore
    case. *)
Variable http : Fetcher.session.
Variable search_anchor : string -> string -> option string.
Variable search_date : string -> string -> string -> string -> bool.

(** The configured region, as [__init__] stores it. *)
Variable region : string.

Definition region_url (href : string) : string :=
  if startswith "http" href then href
  else "https://eclipse.gsfc.nasa.gov/JSEX/" ++ lstrip ["."; "/"]%char href.

(** Lines 327-335: the date search in the fetched region page. *)
Definition date_in_page (ident region_text : string) : result bool :=
  match split "-" ident with
  | [y; mth; d] =>
      mon_txt <- try_except
                   (i <- int mth ;; list_index month_names (i - 1))
                   (Ok mth) ;;
      day <- int d ;;
      Ok (search_date y mon_txt (decimal day) region_text
          || search_date (decimal day) mon_txt y region_text)
  | _ => Raise ValueError
  end.

(** [_async_visible_in_region(identifier)]. *)
Definition _async_visible_in_region (ident : string) : result bool :=
  if String.eqb region "Global" then Ok true
  else
    index_text <- Fetcher.fetch_text http JSEX_INDEX_URL ;;
    if negb (truthy index_text) then Ok true
    else
      let label := dict_get JSEX_REGION_LABELS region in
      if negb (truthy label) then Ok true
      else
        match search_anchor (match label with Some l => l | None => "" end)
                            (match index_text with Some t => t | None => "" end)
        with
        | None => Ok true
        | Some href =>
            region_text <- Fetcher.fetch_text http (region_url href) ;;
            if negb (truthy region_text) then Ok true
            else date_in_page ident
                   (match region_text with Some t => t | None => "" end)
        end.

End Resolver.

End Regional.

(** ** TTL cache and fallback chain (lines 187-195 and 340-356) *)

Module Cache.

Import Py.
#[local] Open Scope string_scope.

(** The fields [_cache_events] and [_cache_timestamp] of the coordinator. *)
Record state : Type := {
  _cache_events : option (list EclipseEvent);
  _cache_timestamp : option datetime
}.


(** [self._cache_ttl = timedelta(hours=24)]. *)
Definition _cache_ttl : timedelta := hours 24.

(** [_cache_set(events)] when [datetime.now(timezone.utc)] is [now]. *)
Definition _cache_set (events : list EclipseEvent) (now : datetime) : state :=
  {| _cache_events := Some events; _cache_timestamp := Some now |}.

(** [_cache_get()] when [datetime.now(timezone.utc)] is [now]. *)
Definition _cache_get (st : state) (now : datetime) : option (list EclipseEvent) :=
  match _cache_events st, _cache_timestamp st with
  | Some (e :: events), Some timestamp =>
      if (now - timestamp <=? _cache_ttl)%Z then Some (e :: events) else None
  | _, _ => None
  end.

(** One item of [ECLIPSE_FALLBACK]: identifier, type, time_utc. *)
Definition ECLIPSE_FALLBACK : list (string * string * string) := [
  ("2026-02-17", "Annular", "17:00");
  ("2026-08-12", "Total", "17:00");
  ("2027-08-02", "Total", "10:08")
].

(** Lines 352-355: the event of one fallback item. *)
Definition fallback_event (item : string * string * string) : result EclipseEvent :=
  let '(ident, typ, time_utc) := item in
  match map int (split "-" ident), map int (split ":" time_utc) with
  | [y; m; d], [hh; mm] =>
      y <- y ;; m <- m ;; d <- d ;; hh <- hh ;; mm <- mm ;;
      dt <- Calendar.datetime_utc y (Some m) d hh mm ;;
      Ok {| identifier := ident; date := dt; type := typ;
            start := None; end_ := None; region_text := None |}
  | _, _ => Raise ValueError
  end.

Fixpoint fallback_events (items : list (string * string * string))
    : result (list EclipseEvent) :=
  match items with
  | [] => Ok []
  | item :: rest =>
      e <- fallback_event item ;;
      tmp <- fallback_events rest ;;
      Ok (e :: tmp)
  end.

(** Which tier the served catalog came from. *)
Inductive tier : Type := Live | Cached | Fallback.

(** Lines 340-356 of [_async_update_data]: the catalog served for the
    fetched-and-parsed list [nasa_events], and the cache afterwards. *)
Definition load_catalog (st : state) (now : datetime)
    (nasa_events : list EclipseEvent)
    : result (state * list EclipseEvent * tier) :=
  match nasa_events with
  | _ :: _ => Ok (_cache_set nasa_events now, nasa_events, Live)
  | [] =>
      match _cache_get st now with
      | Some (e :: cached) => Ok (st, e :: cached, Cached)
      | _ =>
          tmp <- fallback_events ECLIPSE_FALLBACK ;;
          Ok (st, tmp, Fallback)
      end
  end.

End Cache.

(** ** Batch visibility evaluator (lines 358-402) *)

Module Batch.

Import Py.

Definition batch_size : nat := 25.

(** [self.num_events = max(1, min(10, int(num_events)))]. *)
Definition configured_num_events (num_events : Z) : nat :=
  Z.to_nat (Z.max 1 (Z.min 10 num_events)).

(** [range(0, stop, step)]. *)
Definition range_step (stop step : nat) : list nat :=
  map (fun k => k * step)%nat (seq 0 ((stop + step - 1) / step)).

(** [local_max_cov(evt)] with an ephemeris loaded: the coverage of the
    local maximum, [0.0] when there is no result. *)
Definition local_max_cov (eph : ephemeris) (evt : EclipseEvent) : R :=
  match async_find_local_maximum eph (date evt) with
  | Some result => snd result
  | None => 0%R
  end.

Section Evaluator.

(** The coverage each evaluation call returns, and [self.num_events]. *)
Variable coverage_of_event : EclipseEvent -> R.
Variable num_events : nat.

(** [for e, c in zip(batch, coverages)]: [inr] is the [return] inside the
    loop, [inl] the list [visible] when the loop ends. *)
Fixpoint scan_batch (pairs : list (EclipseEvent * R))
    (visible : list EclipseEvent)
    : list EclipseEvent + list EclipseEvent :=
  match pairs with
  | [] => inl visible
  | (e, c) :: rest =>
      if Rgt_dec c 0.0 then
        let visible' := visible ++ [e] in
        if (num_events <=? List.length visible')%nat
        then inr (firstn num_events visible')
        else scan_batch rest visible'
      else scan_batch rest visible
  end.

(** [for start_idx in range(0, max_scan, batch_size)]: the events returned
    and the events an evaluation call was made for, in order. *)
Fixpoint scan_batches (future : list EclipseEvent) (starts : list nat)
    (visible evaluated : list EclipseEvent)
    : list EclipseEvent * list EclipseEvent :=
  match starts with
  | [] => (firstn num_events visible, evaluated)
  | start_idx :: rest =>
      let batch := firstn batch_size (skipn start_idx future) in
      match batch with
      | [] => (firstn num_events visible, evaluated)
      | _ =>
          let coverages := map coverage_of_event batch in
          match scan_batch (combine batch coverages) visible with
          | inr result => (result, evaluated ++ batch)
          | inl visible' => scan_batches future rest visible' (evaluated ++ batch)
          end
      end
  end.

(** Lines 375-389. *)
Definition select_visible (future : list EclipseEvent)
    : list EclipseEvent * list EclipseEvent :=
  scan_batches future (range_step (List.length future) batch_size) [] [].

End Evaluator.

Section Regions.

(** [_async_visible_in_region] of the coordinator. *)
Variable visible_in_region : string -> result bool.
Variable num_events : nat.

(** [asyncio.gather] over the future events: the flags, or the first
    exception. *)
Fixpoint gather_flags (future : list EclipseEvent) : result (list bool) :=
  match future with
  | [] => Ok []
  | e :: rest =>
      ok <- visible_in_region (identifier e) ;;
      flags <- gather_flags rest ;;
      Ok (ok :: flags)
  end.

(** Lines 391-402. *)
Definition select_by_region (future : list EclipseEvent) : list EclipseEvent :=
  match future with
  | [] => []
  | _ =>
      match gather_flags future with
      | Ok vis_flags =>
          let region_visible :=
            map fst (filter snd (combine future vis_flags)) in
          match region_visible with
          | [] => firstn num_events future
          | _ => firstn num_events region_visible
          end
      | Raise _ => firstn num_events future
      end
  end.

End Regions.

End Batch.

(** ** [_async_update_data] (lines 337-402) *)

(** Lines 358-360: the events of a catalog later than [now], by date. *)
Definition future_events (now : datetime) (catalog : list EclipseEvent)
    : list EclipseEvent :=
  Catalog.sort_by_date (filter (fun e => now <? date e) catalog).

(** What one refresh cycle leaves and returns. *)
Record refresh : Type := {
  cache_after : Cache.state;
  served : list EclipseEvent;
  served_from : Cache.tier;
  evaluated : list EclipseEvent;
  returned : list EclipseEvent
}.

Section Update.

Variable findall_rows : string -> list string.
Variable search : string -> option Catalog.Match.
Variable finditer : string -> list Catalog.Match.
Variable search_anchor : string -> string -> option string.
Variable search_date : string -> string -> string -> string -> bool.
Variable http : Fetcher.session.

(** The coordinator's configuration and ephemeris, its cache before the
    cycle, and the clock at the cache access and at line 358. *)
Variable eph : ephemeris.
Variable region : string.
Variable num_events : nat.

Definition _async_update_data (st : Cache.state) (now_cache now : datetime)
    : Py.result refresh :=
  Py.bind (Catalog._async_fetch_nasa findall_rows search finditer http)
    (fun nasa_events =>
  Py.bind (Cache.load_catalog st now_cache nasa_events)
    (fun loaded =>
  let '(st', nasa_events', tier) := loaded in
  let future := future_events now nasa_events' in
  match eph with
  | Some _ =>
      let '(visible, calls) :=
        Batch.select_visible (Batch.local_max_cov eph) num_events future in
      Py.Ok {| cache_after := st'; served := nasa_events'; served_from := tier;
               evaluated := calls; returned := visible |}
  | None =>
      Py.Ok {| cache_after := st'; served := nasa_events'; served_from := tier;
               evaluated := [];
               returned :=
                 Batch.select_by_region
                   (Regional._async_visible_in_region
                      http search_anchor search_date region)
                   num_events future |}
  end)).

End Update.

(** ** Vocabulary of the statements *)


(** The number of requests a log records. *)
Definition requests (log : list Fetcher.effect) : nat :=
  List.length
    (filter (fun x => match x with Fetcher.Get _ => true | _ => false end) log).

(** The delays a log records, in order. *)
Definition sleeps (log : list Fetcher.effect) : list Z :=
  flat_map (fun x => match x with Fetcher.Sleep d => [d] | _ => [] end) log.

(** An event counts as visible when its coverage is positive. *)
Definition is_visible (coverage_of_event : EclipseEvent -> R)
    (e : EclipseEvent) : bool :=
  if Rgt_dec (coverage_of_event e) 0.0 then true else false.













(** A catalog row that names the impossible day 30 February 2030, the
    match [pattern] finds in it, and a session that serves a page holding
    that row with status 200. Under [re.IGNORECASE] the class [[TAPH]] of
    the fourth group already matches the letter [t] of the tag that closes
    the first cell, so that group is [t]; the type is read from it as
    [Total]. *)
Definition feb30_row : string :=
  "<tr><td>2030 Feb 30</td><td>T</td><td>12:00</td></tr>".
Definition feb30_match : Catalog.Match :=
  {| Catalog.group1 := "2030"; Catalog.group2 := "Feb";
     Catalog.group3 := "30"; Catalog.group4 := "t";
     Catalog.group5 := "12:00" |}.
Definition feb30_http : Fetcher.session :=
  fun _ _ => Fetcher.Response 200 (Py.Ok feb30_row).










(** * Properties *)

(** ** Catalog fetcher *)

Lemma request_failed_raises :
  Fetcher.request Fetcher.Failed = Py.Raise Py.TransportError.
Proof. reflexivity. Qed.

Lemma request_non_200_raises (status : Z) (text : Py.result string) :
  status <> 200 ->
  Fetcher.request (Fetcher.Response status text) = Py.Raise Py.RuntimeError.
Proof.
  intros H. unfold Fetcher.request.
  destruct (Z.eqb_spec status 200); [contradiction | reflexivity].
Qed.

(** C6. For every session and URL, [_async_fetch_text] makes at most three
    requests; a request that raises, a response whose status is not 200
    and a body that cannot be read are failed attempts; it sleeps 1 second
    after the first failed attempt and 2 seconds after the second, and
    nothing after the third; it returns the text of the first attempt that
    succeeds and [None] when all three fail, and it never raises. *)
Theorem fetch_text_retries_with_backoff (http : Fetcher.session) (url : string) :
  let get := http url in
  let res := fst (Fetcher._async_fetch_text http url) in
  let log := snd (Fetcher._async_fetch_text http url) in
  (exists v, res = Py.Ok v)
  /\ (requests log <= 3)%nat
  /\ (exists k, sleeps log = firstn k [1; 2])
  /\ Fetcher.request Fetcher.Failed = Py.Raise Py.TransportError
  /\ (forall status text, status <> 200 ->
        Fetcher.request (Fetcher.Response status text) = Py.Raise Py.RuntimeError)
  /\ match Fetcher.request (get 0%nat), Fetcher.request (get 1%nat),
           Fetcher.request (get 2%nat) with
     | Py.Ok text, _, _ =>
         res = Py.Ok (Some text) /\ log = [Fetcher.Get 0]
     | Py.Raise _, Py.Ok text, _ =>
         res = Py.Ok (Some text)
         /\ log = [Fetcher.Get 0; Fetcher.Sleep 1; Fetcher.Get 1]
     | Py.Raise _, Py.Raise _, Py.Ok text =>
         res = Py.Ok (Some text)
         /\ log = [Fetcher.Get 0; Fetcher.Sleep 1; Fetcher.Get 1;
                   Fetcher.Sleep 2; Fetcher.Get 2]
     | Py.Raise _, Py.Raise _, Py.Raise _ =>
         res = Py.Ok None
         /\ log = [Fetcher.Get 0; Fetcher.Sleep 1; Fetcher.Get 1;
                   Fetcher.Sleep 2; Fetcher.Get 2]
     end.
Proof.
  intros get res log. subst res log.
  unfold Fetcher._async_fetch_text. fold get. simpl.
  destruct (Fetcher.request (get 0%nat)) as [t0 | e0]; simpl.
  - repeat split; eauto using request_non_200_raises.
    exists 0%nat; reflexivity.
  - destruct (Fetcher.request (get 1%nat)) as [t1 | e1]; simpl.
    + repeat split; eauto using request_non_200_raises.
      exists 1%nat; reflexivity.
    + destruct (Fetcher.request (get 2%nat)) as [t2 | e2]; simpl;
        (repeat split; eauto using request_non_200_raises);
        exists 2%nat; reflexivity.
Qed.

(** ** TTL cache and fallback chain *)







Section UpdateFacts.

Variable findall_rows : string -> list string.
Variable search : string -> option Catalog.Match.
Variable finditer : string -> list Catalog.Match.
Variable search_anchor : string -> string -> option string.
Variable search_date : string -> string -> string -> string -> bool.
Variable http : Fetcher.session.
Variable eph : ephemeris.
Variable region : string.
Variable num_events : nat.

Let update :=
  _async_update_data findall_rows search finditer search_anchor search_date
    http eph region num_events.



(** A cycle whose fetch and parse raise, raises: neither the cache nor
    the built-in list is served. *)
Lemma update_raises_with_fetch (st : Cache.state) (now_cache now : datetime)
    (e : Py.exn) :
  Catalog._async_fetch_nasa findall_rows search finditer http = Py.Raise e ->
  update st now_cache now = Py.Raise e.
Proof.
  intros Hfetch. unfold update, _async_update_data. rewrite Hfetch. reflexivity.
Qed.


End UpdateFacts.


(** On the page [feb30_row] the row pattern finds the row itself and
    [pattern] finds [feb30_match] in it; the whole-page scan is never
    reached. *)
Lemma fetch_nasa_raises_on_impossible_day
    (finditer : string -> list Catalog.Match) :
  Catalog._async_fetch_nasa (fun text => [text]) (fun _ => Some feb30_match)
    finditer feb30_http = Py.Raise Py.ValueError.
Proof. vm_compute. reflexivity. Qed.

(** C4, where the code departs from it. The first decade page answers 200
    and holds a row the pattern matches that names 30 February 2030:
    [datetime] raises [ValueError] in the [try] of line 256 and again in
    its handler at line 258, [_async_fetch_nasa] raises, and so does the
    refresh cycle, whatever the cache holds: neither a fresh snapshot nor
    the built-in list is served. *)
Theorem refresh_raises_on_impossible_day
    (finditer : string -> list Catalog.Match)
    (search_anchor : string -> string -> option string)
    (search_date : string -> string -> string -> string -> bool)
    (eph : ephemeris) (region : string) (num_events : nat)
    (st : Cache.state) (now_cache now : datetime) :
  _async_update_data (fun text => [text]) (fun _ => Some feb30_match)
    finditer search_anchor search_date feb30_http eph region num_events
    st now_cache now
  = Py.Raise Py.ValueError.
Proof.
  apply update_raises_with_fetch. apply fetch_nasa_raises_on_impossible_day.
Qed.

(** ** Batch visibility evaluator *)

Section BatchFacts.

Variable coverage_of_event : EclipseEvent -> R.
Variable num_events : nat.
Hypothesis num_events_positive : (1 <= num_events)%nat.

Let vis := is_visible coverage_of_event.

Lemma firstn_firstn_skipn {A : Type} (a b : nat) (l : list A) :
  firstn a l ++ firstn b (skipn a l) = firstn (a + b) l.
Proof.
  revert l. induction a as [|a IH]; intros l; simpl.
  - reflexivity.
  - destruct l as [|x l]; simpl.
    + now rewrite firstn_nil.
    + now rewrite IH.
Qed.

Lemma firstn_filter_prefix {A : Type} (f : A -> bool) (n k : nat) (l : list A) :
  (n <= List.length (filter f (firstn k l)))%nat ->
  firstn n (filter f (firstn k l)) = firstn n (filter f l).
Proof.
  intros H. rewrite <- (firstn_skipn k l) at 2.
  rewrite filter_app, firstn_app.
  replace (n - List.length (filter f (firstn k l)))%nat with 0%nat by lia.
  simpl. now rewrite app_nil_r.
Qed.

Lemma filter_firstn_length_mono {A : Type} (f : A -> bool) (a b : nat)
    (l : list A) :
  (a <= b)%nat ->
  (List.length (filter f (firstn a l)) <= List.length (filter f (firstn b l)))%nat.
Proof.
  intros H. replace b with (a + (b - a))%nat by lia.
  rewrite <- firstn_firstn_skipn, filter_app, length_app. lia.
Qed.

(** The inner loop over one batch, entered with fewer than [num_events]
    visible events. *)
Lemma scan_batch_spec (batch visible : list EclipseEvent) :
  (List.length visible < num_events)%nat ->
  Batch.scan_batch num_events
    (combine batch (map coverage_of_event batch)) visible
  = if (num_events <=? List.length (visible ++ filter vis batch))%nat
    then inr (firstn num_events (visible ++ filter vis batch))
    else inl (visible ++ filter vis batch).
Proof.
  revert visible. induction batch as [|e batch IH]; intros visible Hlt; simpl.
  - rewrite app_nil_r.
    destruct (Nat.leb_spec num_events (List.length visible)); [lia | reflexivity].
  - assert (Hv : vis e = if Rgt_dec (coverage_of_event e) 0.0
                         then true else false) by reflexivity.
    destruct (Rgt_dec (coverage_of_event e) 0.0) as [Hpos | Hneg];
      rewrite Hv; clear Hv.
    + rewrite length_app. simpl.
      destruct (Nat.leb_spec num_events (List.length visible + 1)) as [Hge | Hless].
      * rewrite length_app. simpl.
        destruct (Nat.leb_spec num_events
                    (List.length visible + S (List.length (filter vis batch))));
          [|lia].
        f_equal. rewrite !firstn_app.
        replace (num_events - List.length visible)%nat with 1%nat by lia.
        reflexivity.
      * rewrite IH by (rewrite length_app; simpl; lia).
        now rewrite <- app_assoc.
    + now apply IH.
Qed.

(** The outer loop, entered at batch number [j] with [k] batches to go. *)
Lemma scan_batches_spec (future : list EclipseEvent) (k j : nat) :
  (List.length (filter vis (firstn (25 * j) future)) < num_events)%nat ->
  (List.length future <= 25 * (j + k))%nat ->
  exists m,
    Batch.scan_batches coverage_of_event num_events future
      (map (fun i => i * Batch.batch_size)%nat (seq j k))
      (filter vis (firstn (25 * j) future)) (firstn (25 * j) future)
    = (firstn num_events (filter vis future), firstn (25 * m) future)
    /\ (m = j /\ (List.length future <= 25 * j)%nat \/
        (List.length (filter vis (firstn (25 * (m - 1)) future)) < num_events)%nat
        /\ (j < m)%nat).
Proof.
  revert j. induction k as [|k IH]; intros j Hlt Hlen.
  - cbn [seq map Batch.scan_batches]. exists j. split; [|left; split; lia].
    rewrite (firstn_all2 (n := (25 * j)%nat) future) in * by lia.
    reflexivity.
  - cbn [seq map Batch.scan_batches].
    replace (j * Batch.batch_size)%nat with (25 * j)%nat
      by (unfold Batch.batch_size; lia).
    unfold Batch.batch_size.
    destruct (firstn 25 (skipn (25 * j) future)) as [|b batch] eqn:Hbatch.
    + assert (Hskip : skipn (25 * j) future = []).
      { destruct (skipn (25 * j) future); [reflexivity | discriminate]. }
      assert (Hall : firstn (25 * j) future = future).
      { rewrite <- (firstn_skipn (25 * j) future) at 2.
        rewrite Hskip. now rewrite app_nil_r. }
      exists j. split.
      * rewrite Hall in *. reflexivity.
      * left. split; [reflexivity|].
        apply (f_equal (@List.length _)) in Hskip.
        rewrite length_skipn in Hskip. simpl in Hskip. lia.
    + rewrite <- Hbatch. rewrite scan_batch_spec by exact Hlt.
      rewrite <- filter_app, firstn_firstn_skipn.
      replace (25 * j + 25)%nat with (25 * S j)%nat by lia.
      destruct (Nat.leb_spec num_events
                  (List.length (filter vis (firstn (25 * S j) future)))) as [Hge | Hless].
      * exists (S j). split.
        -- f_equal. now apply firstn_filter_prefix.
        -- right. split; [|lia]. now replace (S j - 1)%nat with j by lia.
      * destruct (IH (S j) Hless) as [m [Hm Hcase]]; [lia|].
        exists m. split; [exact Hm|].
        right. destruct Hcase as [[-> _] | [H1 H2]].
        -- split; [|lia]. now replace (S j - 1)%nat with j by lia.
        -- split; [exact H1 | lia].
Qed.

(** What [select_visible] returns and which events it evaluates: [m] is
    the number of batches issued. *)
Lemma select_visible_spec (future : list EclipseEvent) :
  exists m,
    Batch.select_visible coverage_of_event num_events future
    = (firstn num_events (filter vis future), firstn (25 * m) future)
    /\ (m = 0%nat -> future = [])
    /\ ((0 < m)%nat ->
         (List.length (filter vis (firstn (25 * (m - 1)) future)) < num_events)%nat)
    /\ (forall i,
          (num_events <= List.length (filter vis (firstn (S i) future)))%nat ->
          (m <= i / 25 + 1)%nat).
Proof.
  unfold Batch.select_visible, Batch.range_step.
  destruct (scan_batches_spec future
              ((List.length future + Batch.batch_size - 1) / Batch.batch_size) 0)
    as [m [Hm Hcase]].
  - simpl. lia.
  - unfold Batch.batch_size. simpl "+".
    pose proof (Nat.div_mod_eq (List.length future + 25 - 1) 25) as Hd.
    pose proof (Nat.mod_upper_bound (List.length future + 25 - 1) 25).
    lia.
  - exists m. split; [exact Hm|]. split; [|split].
    + intros ->. destruct Hcase as [[_ Hlen] | [_ Hlt]]; [|lia].
      destruct future; [reflexivity | simpl in Hlen; lia].
    + intros Hpos. destruct Hcase as [[-> _] | [Hlt _]]; [lia | exact Hlt].
    + intros i Hi. destruct Hcase as [[-> _] | [Hlt _]]; [lia|].
      destruct (Nat.le_gt_cases (S i) (25 * (m - 1))) as [Hle | Hgt].
      * pose proof (filter_firstn_length_mono vis (S i) (25 * (m - 1)) future Hle).
        lia.
      * assert (m - 1 <= i / 25)%nat; [|lia].
        apply Nat.div_le_lower_bound; lia.
Qed.

End BatchFacts.

Lemma configured_num_events_range (num_events : Z) :
  (1 <= Batch.configured_num_events num_events <= 10)%nat.
Proof. unfold Batch.configured_num_events. lia. Qed.



(** The scenario of the specification: 100 future events of which those
    at indices 0, 1 and 2 are visible, and a desired count of 3; only the
    first batch of 25 events is evaluated. *)
Lemma select_visible_hundred_events
    (coverage_of_event : EclipseEvent -> R) (future : list EclipseEvent) :
  List.length future = 100%nat ->
  forallb (is_visible coverage_of_event) (firstn 3 future) = true ->
  snd (Batch.select_visible coverage_of_event
         (Batch.configured_num_events 3) future)
  = firstn 25 future.
Proof.
  intros Hlen Hvis.
  destruct (select_visible_spec coverage_of_event (Batch.configured_num_events 3)
              (proj1 (configured_num_events_range 3)) future)
    as [m [Hm [H0 [_ Hexit]]]].
  rewrite Hm. simpl snd.
  assert (Hm1 : (m <= 1)%nat).
  { apply (Hexit 2%nat).
    assert (Hall : filter (is_visible coverage_of_event) (firstn 3 future)
                   = firstn 3 future).
    { apply forallb_filter_id. exact Hvis. }
    rewrite Hall, length_firstn, Hlen. vm_compute. lia. }
  assert (m <> 0)%nat.
  { intros ->. rewrite H0 in Hlen by reflexivity. discriminate. }
  replace m with 1%nat by lia. reflexivity.
Qed.

(** ** Catalog parser: deduplication and order *)

Section DedupFacts.

Import Catalog.







End DedupFacts.








Section FetchNasaFacts.

Variable findall_rows : string -> list string.
Variable search : string -> option Catalog.Match.
Variable finditer : string -> list Catalog.Match.
Variable http : Fetcher.session.


End FetchNasaFacts.

(** ** Catalog parser: rows whose time is not a time of day *)


Section RowFacts.

Variable search : string -> option Catalog.Match.


End RowFacts.


(** ** Regional visibility resolver *)


Section ResolverFacts.

Variable http : Fetcher.session.
Variable search_anchor : string -> string -> option string.
Variable search_date : string -> string -> string -> string -> bool.
Variable region : string.

Let visible :=
  Regional._async_visible_in_region http search_anchor search_date region.


End ResolverFacts.

(** ** Local-maximum search *)

Section GridSearch.

Variable separation : datetime -> R.












End GridSearch.

(** ** Rounding to one decimal place *)

Section Rounding.

#[local] Open Scope R_scope.

Lemma Int_part_bounds (x : R) : IZR (Int_part x) <= x < IZR (Int_part x) + 1.
Proof. destruct (base_Int_part x). lra. Qed.

(** The integer [round] returns is within one half of its argument. *)
Lemma round_half_even_near (x : R) :
  IZR (Overlap.round_half_even x) - 1 / 2 <= x
  <= IZR (Overlap.round_half_even x) + 1 / 2.
Proof.
  unfold Overlap.round_half_even. pose proof (Int_part_bounds x) as Hb.
  destruct (Rlt_dec (x - IZR (Int_part x)) (1 / 2)); [lra|].
  destruct (Rlt_dec (1 / 2) (x - IZR (Int_part x))).
  - rewrite plus_IZR. lra.
  - destruct (Z.even (Int_part x)); [lra | rewrite plus_IZR; lra].
Qed.

(** Strictly within one half of an integer, [round] returns it. *)
Lemma round_half_even_unique (x : R) (k : Z) :
  IZR k - 1 / 2 < x < IZR k + 1 / 2 -> Overlap.round_half_even x = k.
Proof.
  intros Hk. pose proof (round_half_even_near x) as Hn.
  set (n := Overlap.round_half_even x) in *.
  assert (H1 : IZR n < IZR k + 1) by lra.
  assert (H2 : IZR k < IZR n + 1) by lra.
  rewrite <- plus_IZR in H1, H2. apply lt_IZR in H1, H2. lia.
Qed.

Lemma round_half_even_IZR (k : Z) : Overlap.round_half_even (IZR k) = k.
Proof. apply round_half_even_unique. lra. Qed.

Lemma round_half_even_mono (x y : R) :
  x <= y -> (Overlap.round_half_even x <= Overlap.round_half_even y)%Z.
Proof.
  intros Hxy. unfold Overlap.round_half_even.
  pose proof (Int_part_bounds x) as Hx. pose proof (Int_part_bounds y) as Hy.
  set (n := Int_part x) in *. set (m := Int_part y) in *.
  assert (Hnm : (n <= m)%Z).
  { assert (H : IZR n < IZR m + 1) by lra.
    rewrite <- plus_IZR in H. apply lt_IZR in H. lia. }
  destruct (Z.eq_dec n m) as [Heq | Hne].
  - rewrite <- Heq in *.
    destruct (Rlt_dec (x - IZR n) (1 / 2)).
    + destruct (Rlt_dec (y - IZR n) (1 / 2)); [lia|].
      destruct (Rlt_dec (1 / 2) (y - IZR n)); [lia|].
      destruct (Z.even n); lia.
    + destruct (Rlt_dec (1 / 2) (x - IZR n)).
      * destruct (Rlt_dec (y - IZR n) (1 / 2)); [lra|].
        destruct (Rlt_dec (1 / 2) (y - IZR n)); [lia | lra].
      * destruct (Rlt_dec (y - IZR n) (1 / 2)); [lra|].
        destruct (Rlt_dec (1 / 2) (y - IZR n)); [|lia].
        destruct (Z.even n); lia.
  - assert (n + 1 <= m)%Z by lia.
    destruct (Rlt_dec (x - IZR n) (1 / 2));
      destruct (Rlt_dec (y - IZR m) (1 / 2));
      repeat match goal with
      | |- context [Rlt_dec ?a ?b] => destruct (Rlt_dec a b)
      | |- context [Z.even ?a] => destruct (Z.even a)
      end; lia.
Qed.

Lemma round1_mono (x y : R) : x <= y -> Overlap.round1 x <= Overlap.round1 y.
Proof.
  intros Hxy. unfold Overlap.round1.
  assert (H : (Overlap.round_half_even (x * 10)
               <= Overlap.round_half_even (y * 10))%Z)
    by (apply round_half_even_mono; lra).
  apply IZR_le in H. lra.
Qed.

(** A multiple of one tenth is its own rounding. *)
Lemma round1_tenths (k : Z) : Overlap.round1 (IZR k / 10) = IZR k / 10.
Proof.
  unfold Overlap.round1.
  replace (IZR k / 10 * 10) with (IZR k) by lra.
  now rewrite round_half_even_IZR.
Qed.


Lemma round1_range (x lo hi : R) (a b : Z) :
  lo = IZR a / 10 -> hi = IZR b / 10 -> lo <= x <= hi ->
  lo <= Overlap.round1 x <= hi.
Proof.
  intros -> -> [H1 H2]. split.
  - rewrite <- (round1_tenths a). now apply round1_mono.
  - rewrite <- (round1_tenths b). now apply round1_mono.
Qed.


End Rounding.

(** ** Geometric overlap: the radii and the two constant branches *)

Section OverlapBranches.

#[local] Open Scope R_scope.










End OverlapBranches.

(** ** Trigonometry used by the overlap proofs *)

Section Trigonometry.

#[local] Open Scope R_scope.













End Trigonometry.

(** ** Geometry of the lens *)

Section LensAnalysis.

#[local] Open Scope R_scope.








End LensAnalysis.

Section Lens.

#[local] Open Scope R_scope.

Variables Rs rm : R.
Hypothesis radii : 0 < rm < Rs.















End Lens.

(** ** Geometric overlap: the code's radii *)

Section Numerics.

#[local] Open Scope R_scope.




End Numerics.

Section CodeRadii.

#[local] Open Scope R_scope.

#[local] Abbreviation Rs := Overlap.sun_radius_rad.
#[local] Abbreviation rm := Overlap.moon_radius_rad.





















(** *** The unrounded helper of the contact scan *)








(** *** A grazing separation *)




End CodeRadii.

Section OverlapContract.

#[local] Open Scope R_scope.


(** ** Geometric overlap: the contract *)


(** ** Geometric overlap: monotonicity *)




End OverlapContract.

(** ** Local-maximum search: the result *)






(** ** Contact-time search: the two loops *)

Section ContactLoops.

Variable coverage : datetime -> R.
Variable limit : datetime.




End ContactLoops.

Section ContactRuns.

Variable coverage : datetime -> R.



End ContactRuns.

(** ** Contact-time search: the result *)


(** ** Contact-time search: a grazing eclipse *)

Section GrazingEclipse.

#[local] Open Scope R_scope.




End GrazingEclipse.


(** ** Further properties of the refresh cycle *)




Section RegionFilter.

Variable visible_in_region : string -> Py.result bool.
Variable num_events : nat.








End RegionFilter.


(** ** The TTL cache *)


(** ** Future events *)


(** ** Region hint of a catalog row (lines 289-304) *)


Lemma extract_region_hint_examples :
  Catalog._extract_region_hint "<td>Total</td><td>Mexico, USA, Canada</td>"
  = Some "North America"%string
  /\ Catalog._extract_region_hint "<td>s Asia, Australia</td>" = Some "Asia"%string
  /\ Catalog._extract_region_hint "<td>Pacific Ocean</td>" = None.
Proof. repeat split; vm_compute; reflexivity. Qed.

(** ** Geometric overlap: the two functions agree up to rounding *)


(** ** Geometry of the lens: any pair of radii *)


